(** * rawapi: reflection-driven registration of shard API request handlers

    A shallow embedding of [nil/services/rpc/rawapi/server.go].  The Go code
    walks the method set of an API interface with [reflect], pairs every
    exported method with a codec, wraps the bound method into a
    bytes-to-bytes request handler and installs the handlers in the network
    manager under [/shard/<id>/<api>/<method>].

    Go features are embedded as follows.
    - a panic is an outcome of its own, next to a normal return;
    - a Go result pair [(v, err)] is a pair whose second component is an
      [option error] ([None] is [nil]);
    - [reflect.Type] of an interface is its name and its list of methods,
      a value stored in [any] is an object carrying its bound methods;
    - a map is a [gmap]; the network manager and the logger are the mutable
      part of the world and are threaded explicitly. *)

From Stdlib Require Import Ascii.
From stdpp Require Import gmap strings pretty list.

(** ** Go runtime: errors, panics *)

Module Go.

(** Go error values as this package builds them: [errors.New(text)] and
    [fmt.Errorf("%w: %w", e1, e2)]. *)
Inductive error : Type :=
  | errors_New (text : string)
  | fmt_Errorf_ww (e1 e2 : error).

(** The [Error()] method. *)
Fixpoint Error (e : error) : string :=
  match e with
  | errors_New text => text
  | fmt_Errorf_ww e1 e2 => Error e1 +:+ ": " +:+ Error e2
  end.

(** What a call does: it returns, or it panics with a message. *)
Inductive outcome (A : Type) : Type :=
  | Returns (a : A)
  | Panics (msg : string).
Arguments Returns {A} a.
Arguments Panics {A} msg.

Definition bind {A B} (o : outcome A) (k : A → outcome B) : outcome B :=
  match o with
  | Returns a => k a
  | Panics msg => Panics msg
  end.

End Go.

Export Go.

(** Sequencing of calls: a panic ends the sequence. *)
Global Instance outcome_bind : MBind outcome := λ A B k o, Go.bind o k.

Abbreviation bytes := (list Byte.byte).

(** ** reflect: interface types, method sets, objects *)

Module reflect.

(** A Go function signature without the receiver: parameter and result type
    names. *)
Record FuncType : Type := mkFuncType {
  In_ : list string;
  Out : list string
}.

(** [reflect.Method]: the name, the package path (empty exactly for an
    exported name) and the signature. *)
Record Method : Type := mkMethod {
  Name : string;
  PkgPath : string;
  Type_ : FuncType
}.

(** [reflect.Type] of an interface type: [String()] and the methods
    [Method(0) .. Method(NumMethod()-1)], unexported ones included. *)
Record rtype : Type := mkType {
  String_ : string;
  Methods : list Method
}.

Global Instance FuncType_eq_dec : EqDecision FuncType.
Proof. solve_decision. Defined.
Global Instance Method_eq_dec : EqDecision Method.
Proof. solve_decision. Defined.

(** [Method.IsExported]. *)
Definition IsExported (m : Method) : bool := bool_decide (PkgPath m = "").

End reflect.

Export reflect.

(** ** The protocol mirror (server.go, lines 19-45) *)

Definition pbMethod (name request response : string) : Method :=
  mkMethod name "" (mkFuncType [request] [response]).

Definition pbMethod0 (name response : string) : Method :=
  mkMethod name "" (mkFuncType [] [response]).

(** The methods of [NetworkTransportProtocolRo] as lines 20-37 declare
    them. *)
Definition NetworkTransportProtocolRo_declared : list Method :=
  [ pbMethod "GetBlockHeader" "pb.BlockRequest" "pb.RawBlockResponse";
    pbMethod "GetFullBlockData" "pb.BlockRequest" "pb.RawFullBlockResponse";
    pbMethod "GetBlockTransactionCount" "pb.BlockRequest" "pb.Uint64Response";
    pbMethod "GetInTransaction" "pb.TransactionRequest" "pb.TransactionResponse";
    pbMethod "GetInTransactionReceipt" "pb.Hash" "pb.ReceiptResponse";
    pbMethod "GetBalance" "pb.AccountRequest" "pb.BalanceResponse";
    pbMethod "GetCode" "pb.AccountRequest" "pb.CodeResponse";
    pbMethod "GetTokens" "pb.AccountRequest" "pb.TokensResponse";
    pbMethod "GetTransactionCount" "pb.AccountRequest" "pb.Uint64Response";
    pbMethod "GetContract" "pb.AccountRequest" "pb.RawContractResponse";
    pbMethod "Call" "pb.CallRequest" "pb.CallResponse";
    pbMethod0 "GasPrice" "pb.GasPriceResponse";
    pbMethod0 "GetShardIdList" "pb.ShardIdListResponse";
    pbMethod0 "GetNumShards" "pb.Uint64Response" ].

(** The methods of [NetworkTransportProtocol] as lines 43-44 declare them:
    the embedded interface, then [SendTransaction]. *)
Definition NetworkTransportProtocol_declared : list Method :=
  NetworkTransportProtocolRo_declared ++
  [ pbMethod "SendTransaction" "pb.SendTransactionRequest" "pb.SendTransactionResponse" ].

(** [reflect] numbers the methods of an interface type in the order of
    their names: [Method(0) .. Method(NumMethod()-1)] of
    [reflect.TypeFor[NetworkTransportProtocolRo]()]. *)
Definition NetworkTransportProtocolRo_methods : list Method :=
  [ pbMethod "Call" "pb.CallRequest" "pb.CallResponse";
    pbMethod0 "GasPrice" "pb.GasPriceResponse";
    pbMethod "GetBalance" "pb.AccountRequest" "pb.BalanceResponse";
    pbMethod "GetBlockHeader" "pb.BlockRequest" "pb.RawBlockResponse";
    pbMethod "GetBlockTransactionCount" "pb.BlockRequest" "pb.Uint64Response";
    pbMethod "GetCode" "pb.AccountRequest" "pb.CodeResponse";
    pbMethod "GetContract" "pb.AccountRequest" "pb.RawContractResponse";
    pbMethod "GetFullBlockData" "pb.BlockRequest" "pb.RawFullBlockResponse";
    pbMethod "GetInTransaction" "pb.TransactionRequest" "pb.TransactionResponse";
    pbMethod "GetInTransactionReceipt" "pb.Hash" "pb.ReceiptResponse";
    pbMethod0 "GetNumShards" "pb.Uint64Response";
    pbMethod0 "GetShardIdList" "pb.ShardIdListResponse";
    pbMethod "GetTokens" "pb.AccountRequest" "pb.TokensResponse";
    pbMethod "GetTransactionCount" "pb.AccountRequest" "pb.Uint64Response" ].

Definition NetworkTransportProtocolRo : rtype :=
  mkType "rawapi.NetworkTransportProtocolRo" NetworkTransportProtocolRo_methods.

(** [NetworkTransportProtocol] embeds the read-only interface and adds
    [SendTransaction], whose name comes last in the order of the names. *)
Definition NetworkTransportProtocol : rtype :=
  mkType "rawapi.NetworkTransportProtocol"
    (NetworkTransportProtocolRo_methods ++
     [ pbMethod "SendTransaction" "pb.SendTransactionRequest" "pb.SendTransactionResponse" ]).

(** The order of the names: every name is below the next one, byte by
    byte. *)
Fixpoint sortedByName (ms : list Method) : bool :=
  match ms with
  | [] => true
  | m :: rest =>
      match rest with
      | [] => true
      | m' :: _ => String.ltb (Name m) (Name m') && sortedByName rest
      end
  end.

(** [var errRequestHandlerCreation] (line 17). *)
Definition errRequestHandlerCreation : error :=
  errors_New "failed to create request handler".

(** [network.ProtocolID] is a string type. *)
Abbreviation ProtocolID := string.

(** Modelled from the spec: [types.ShardId] is declared outside this file;
    it is the shard's numeric identifier, an unsigned integer. *)
Abbreviation ShardId := N.

(** [network.ProtocolID(fmt.Sprintf("/shard/%d/%s/%s", shardId, apiName, methodName))]
    (line 73): [%d] prints the identifier in decimal, [%s] a string as it is. *)
Definition protocolID (shardId : ShardId) (apiName methodName : string) : ProtocolID :=
  "/shard/" +:+ pretty shardId +:+ "/" +:+ apiName +:+ "/" +:+ methodName.

(** A string without the separator [/] of the identifiers; a Go identifier,
    and so every method name, is one. *)
Fixpoint slashFree (s : string) : bool :=
  match s with
  | EmptyString => true
  | String c rest => if decide (c = "/"%char) then false else slashFree rest
  end.

(** Modelled from the spec: [check.PanicIfNotf] is declared outside this
    file; it panics with the formatted message unless the flag holds. *)
Definition PanicIfNotf (flag : bool) (msg : string) : outcome unit :=
  if flag then Returns tt else Panics msg.

(** Modelled from the spec: [isExportedMethod] is declared outside this
    file; only publicly exposed (exported) methods participate. *)
Definition isExportedMethod (m : Method) : bool := IsExported m.

(** Modelled from the spec: [iterMethods] is declared outside this file; it
    yields the methods of the type one by one. *)
Definition iterMethods (t : rtype) : list Method := Methods t.

(** Modelled from the spec: [common.Filter] is declared outside this file;
    it keeps the elements that satisfy the predicate, in their order. *)
Definition Filter {A : Type} (seq : list A) (pred : A → bool) : list A :=
  filter pred seq.

(** The methods that the loop of [getRawApiRequestHandlers] ranges over. *)
Definition exportedMethods (t : rtype) : list Method :=
  Filter (iterMethods t) isExportedMethod.

Section RawApi.

(** [context.Context], [reflect.Value] and the state of the shard that the
    API methods read and write. *)
Context {Ctx Value St : Type}.

(** [reflect.ValueOf(ctx)]. *)
Variable ValueOf : Ctx → Value.

(** A function value as [reflect.Value.Call] sees it: it takes the argument
    values and returns the result values, may change the shard and may
    panic. *)
Definition Func : Type := list Value → St → outcome (list Value) * St.

(** The dynamic value behind an [any]: the methods of its dynamic type, each
    with its implementation bound to the receiver. *)
Record Object : Type := mkObject {
  TypeName : string;
  Bound : list (Method * Func)
}.

Definition MethodSet (o : Object) : list Method := (Bound o).*1.

(** [reflect.Type.Implements]: every method of the interface is in the
    method set with its name, package path and signature. *)
Definition Implements (o : Object) (u : rtype) : bool :=
  forallb (λ m, bool_decide (m ∈ MethodSet o)) (Methods u).

(** [reflect.Value.MethodByName]: the bound exported method of that name, or
    the zero Value when there is none. *)
Definition MethodByName (o : Object) (name : string) : option Func :=
  snd <$> List.find (λ mf, IsExported mf.1 && bool_decide (Name mf.1 = name)) (Bound o).

(** [reflect.Value.Call]; calling the zero Value panics. *)
Definition Call (v : option Func) (args : list Value) (st : St) : outcome (list Value) * St :=
  match v with
  | Some f => f args st
  | None => (Panics "reflect: call of reflect.Value.Call on zero Value", st)
  end.

(** Modelled from the spec: the [methodCodec] struct is declared outside this
    file; server.go uses its three methods, at the Go types of the call
    sites: [unpackRequest] decodes the request bytes into the argument
    values, [packError] is the error path of the encoder, [packResponse]
    encodes the results of the call. *)
Record methodCodec : Type := mkCodec {
  unpackRequest : bytes → list Value * option error;
  packError : error → bytes;
  packResponse : list Value → bytes * option error
}.

(** [network.RequestHandler]: [func(ctx, request []byte) ([]byte, error)]. *)
Definition RequestHandler : Type :=
  Ctx → bytes → St → outcome (bytes * option error) * St.

(** [makeRequestHandler] (lines 91-104). *)
Definition makeRequestHandler (apiMethod : option Func) (codec : methodCodec)
    : RequestHandler :=
  λ ctx request st,
    let '(unpackedArguments, err) := unpackRequest codec request in
    match err with
    | Some err => (Returns (packError codec err, None), st)
    | None =>
        let apiArguments := [ValueOf ctx] in
        let apiArguments := apiArguments ++ unpackedArguments in
        match Call apiMethod apiArguments st with
        | (Returns apiCallResults, st) => (Returns (packResponse codec apiCallResults), st)
        | (Panics msg, st) => (Panics msg, st)
        end
    end.

(** The codec builder [newApiCodec(apiType, protocolInterfaceType)] is
    declared outside this file and is a parameter here: it returns the
    table of codecs by method name, or an error. *)
Variable newApiCodec : rtype → rtype → gmap string methodCodec * option error.

(** The loop of lines 68-75, over the exported methods in order. *)
Fixpoint handlersLoop (codec : gmap string methodCodec) (apiValue : Object)
    (shardId : ShardId) (apiName : string) (methods : list Method)
    (requestHandlers : gmap ProtocolID RequestHandler)
    : outcome (gmap ProtocolID RequestHandler) :=
  match methods with
  | [] => Returns requestHandlers
  | method :: rest =>
      let methodName := Name method in
      match codec !! methodName with
      | None => Panics ("Appropriate codec is not found for method " +:+ methodName)
      | Some methodCodec =>
          let protocol := protocolID shardId apiName methodName in
          handlersLoop codec apiValue shardId apiName rest
            (<[protocol := makeRequestHandler (MethodByName apiValue methodName) methodCodec]>
               requestHandlers)
      end
  end.

(** [getRawApiRequestHandlers] (lines 59-77).  [api] is an [any]: [None] is
    the nil interface, on which [reflect.ValueOf(api).Type()] panics. *)
Definition getRawApiRequestHandlers (protocolInterfaceType apiType : rtype)
    (api : option Object) (shardId : ShardId) (apiName : string)
    : outcome (gmap ProtocolID RequestHandler * option error) :=
  match api with
  | None => Panics "reflect: call of reflect.Value.Type on zero Value"
  | Some apiValue =>
      _ ← PanicIfNotf (Implements apiValue apiType)
            ("api does not implement " +:+ String_ apiType);
      let requestHandlers : gmap ProtocolID RequestHandler := ∅ in
      let '(codec, err) := newApiCodec apiType protocolInterfaceType in
      match err with
      | Some err => Returns (∅, Some (fmt_Errorf_ww errRequestHandlerCreation err))
      | None =>
          requestHandlers ← handlersLoop codec apiValue shardId apiName
                              (Filter (iterMethods apiType) isExportedMethod)
                              requestHandlers;
          Returns (requestHandlers, None)
      end
  end.

(** One line of the logger: [logger.Error().Err(err).Msg(msg)]. *)
Record LogEvent : Type := mkLogEvent {
  level : string;
  err_field : error;
  message : string
}.

(** What registration changes: the handler table of the network manager and
    the output of the logger. *)
Record World : Type := mkWorld {
  handlers : gmap ProtocolID RequestHandler;
  logged : list LogEvent
}.

(** Modelled from the spec: [network.Manager.SetRequestHandler] is declared
    outside this file; the handler table is a plain overwrite-on-insert
    table, the last registration under an identifier wins. *)
Definition SetRequestHandler (ctx : Ctx) (name : ProtocolID) (handler : RequestHandler)
    (w : World) : World :=
  mkWorld (<[name := handler]> (handlers w)) (logged w).

Definition logError (err : error) (msg : string) (w : World) : World :=
  mkWorld (handlers w) (logged w ++ [mkLogEvent "error" err msg]).

(** The loop of lines 85-87 over the entries in the order [entries]. *)
Definition installHandlers (ctx : Ctx) (entries : list (ProtocolID * RequestHandler))
    (w : World) : World :=
  foldl (λ w entry, SetRequestHandler ctx entry.1 entry.2 w) w entries.

(** [setRawApiRequestHandlers] (lines 79-89).  Go ranges over the map in an
    unspecified order; [installHandlers_order] below shows that every order
    gives the world that the order of [map_to_list] gives. *)
Definition setRawApiRequestHandlers (ctx : Ctx) (protocolInterfaceType apiType : rtype)
    (api : option Object) (shardId : ShardId) (apiName : string) (w : World)
    : outcome (option error) * World :=
  match getRawApiRequestHandlers protocolInterfaceType apiType api shardId apiName with
  | Panics msg => (Panics msg, w)
  | Returns (requestHandlers, Some err) =>
      (Returns (Some err), logError err "Failed to create request handlers" w)
  | Returns (requestHandlers, None) =>
      (Returns None, installHandlers ctx (map_to_list requestHandlers) w)
  end.

(** The Go signatures of the API methods, by method name, and the
    unexported methods of the API interfaces: both are declared outside this
    file and are parameters. *)
Variable apiSignature : string → FuncType.
Variable apiInternal : list (string * FuncType).

(** The package that an unexported method of this package belongs to. *)
Definition rawapiPkgPath : string :=
  "github.com/NilFoundation/nil/nil/services/rpc/rawapi".

(** The API method that a method of the protocol mirror stands for: the
    mirror has one method per API method, matched by name. *)
Definition apiMethodOf (mirror : Method) : Method :=
  mkMethod (Name mirror) "" (apiSignature (Name mirror)).

Definition internalMethod (d : string * FuncType) : Method :=
  mkMethod d.1 rawapiPkgPath d.2.

(** Modelled from the spec: the interface [ShardApiRo] is declared outside
    this file.  Its exported methods are the API methods that the read-only
    mirror [NetworkTransportProtocolRo] has a method for. *)
Definition ShardApiRo : rtype :=
  mkType "rawapi.ShardApiRo"
    ((apiMethodOf <$> Methods NetworkTransportProtocolRo) ++ (internalMethod <$> apiInternal)).

(** Modelled from the spec: the interface [ShardApi] is declared outside
    this file.  Full is a superset of read-only: its exported methods are
    the API methods that the mirror [NetworkTransportProtocol] has a method
    for, [SendTransaction] among them. *)
Definition ShardApi : rtype :=
  mkType "rawapi.ShardApi"
    ((apiMethodOf <$> Methods NetworkTransportProtocol) ++ (internalMethod <$> apiInternal)).

(** [SetRawApiRequestHandlers] (lines 47-57). *)
Definition SetRawApiRequestHandlers (ctx : Ctx) (shardId : ShardId) (api : option Object)
    (readonly : bool) (w : World) : outcome (option error) * World :=
  let '(protocolInterfaceType, apiType) :=
    if readonly then (NetworkTransportProtocolRo, ShardApiRo)
    else (NetworkTransportProtocol, ShardApi) in
  setRawApiRequestHandlers ctx protocolInterfaceType apiType api shardId "rawapi" w.

End RawApi.

(** ** A small instance

    A one-value context, three kinds of values, a shard that counts the
    calls it served.  The statements below are exercised on it. *)

Module Sample.

Inductive value : Type :=
  | VCtx
  | VBytes (b : bytes)
  | VErr (e : option error).

Definition valueOf (_ : unit) : value := VCtx.

Definition encodeError (e : error) : bytes := [Byte.xff].

(** A codec that rejects the empty request and passes the payload on. *)
Definition codec : @methodCodec value :=
  {| unpackRequest := λ request,
       match request with
       | [] => ([], Some (errors_New "empty request"))
       | _ => ([VBytes request], None)
       end;
     packError := encodeError;
     packResponse := λ results,
       match results with
       | [VBytes b; VErr None] => (Byte.x00 :: b, None)
       | [_; VErr (Some e)] => (encodeError e, None)
       | _ => ([], Some (errors_New "unexpected results"))
       end |}.

(** An API method that echoes its argument and counts the call. *)
Definition echo : @Func value nat :=
  λ args st,
    match args with
    | [VCtx; VBytes b] => (Returns [VBytes b; VErr None], S st)
    | _ => (Panics "reflect: Call with wrong arguments", st)
    end.

(** An API method whose results the codec cannot encode. *)
Definition odd : @Func value nat :=
  λ args st, (Returns [VCtx], S st).

(** A codec builder that pairs every exported API method with the mirror
    method of the same name, and fails when there is none. *)
Definition buildCodec (apiType protocolInterfaceType : rtype)
    : gmap string (@methodCodec value) * option error :=
  let exported := exportedMethods apiType in
  if forallb (λ m, bool_decide (Name m ∈ Name <$> Methods protocolInterfaceType)) exported
  then (list_to_map ((λ m, (Name m, codec)) <$> exported), None)
  else (∅, Some (errors_New "no protocol method for an api method")).

(** A codec builder that forgets every method. *)
Definition emptyCodec (apiType protocolInterfaceType : rtype)
    : gmap string (@methodCodec value) * option error :=
  (∅, None).

Definition signature (name : string) : FuncType :=
  mkFuncType ["context.Context"; "[]byte"] ["[]byte"; "error"].

Definition internal : list (string * FuncType) :=
  [("setNodeApi", mkFuncType ["rawapi.NodeApi"] [])].

(** An object with every method of the interface, all bound to [echo]. *)
Definition implementation (t : rtype) : @Object value nat :=
  mkObject "*rawapi.sampleApi" ((λ m, (m, echo)) <$> Methods t).

Definition fullApi : @Object value nat := implementation (ShardApi signature internal).

Definition emptyWorld : @World unit nat := mkWorld ∅ [].

(** A two-method API and its mirror. *)
Definition smallApi : rtype :=
  mkType "rawapi.smallApi"
    [ mkMethod "GetBalance" "" (signature "GetBalance");
      mkMethod "helper" rawapiPkgPath (mkFuncType [] []) ].

Definition smallProtocol : rtype :=
  mkType "rawapi.smallProtocol" [ pbMethod "GetBalance" "pb.AccountRequest" "pb.BalanceResponse" ].

Definition smallObject : @Object value nat :=
  mkObject "*rawapi.smallImpl"
    [ (mkMethod "GetBalance" "" (signature "GetBalance"), echo);
      (mkMethod "helper" rawapiPkgPath (mkFuncType [] []), odd) ].

(** An object without [GetBalance]. *)
Definition poorObject : @Object value nat :=
  mkObject "*rawapi.poorImpl"
    [ (mkMethod "helper" rawapiPkgPath (mkFuncType [] []), odd) ].

(** An API whose only method returns what the codec cannot encode. *)
Definition oddApi : rtype :=
  mkType "rawapi.oddApi" [ mkMethod "Odd" "" (signature "Odd") ].

Definition oddProtocol : rtype :=
  mkType "rawapi.oddProtocol" [ pbMethod "Odd" "pb.Hash" "pb.Uint64Response" ].

Definition oddObject : @Object value nat :=
  mkObject "*rawapi.oddImpl" [ (mkMethod "Odd" "" (signature "Odd"), odd) ].

(** A mirror without methods: no API method finds its mirror method. *)
Definition noProtocol : rtype := mkType "rawapi.noProtocol" [].

Definition GetBalance : Method := mkMethod "GetBalance" "" (signature "GetBalance").

Definition Odd : Method := mkMethod "Odd" "" (signature "Odd").

(** The registrations that the statements are tried on. *)
Definition smallRun : outcome (option error) * @World unit nat :=
  setRawApiRequestHandlers valueOf buildCodec tt smallProtocol smallApi
    (Some smallObject) 3 "rawapi" emptyWorld.

Definition oddRun : outcome (option error) * @World unit nat :=
  setRawApiRequestHandlers valueOf buildCodec tt oddProtocol oddApi
    (Some oddObject) 7 "rawapi" emptyWorld.

Definition fullRun : outcome (option error) * @World unit nat :=
  SetRawApiRequestHandlers valueOf buildCodec signature internal tt 3
    (Some fullApi) false emptyWorld.

Definition readOnlyRun : outcome (option error) * @World unit nat :=
  SetRawApiRequestHandlers valueOf buildCodec signature internal tt 3
    (Some fullApi) true emptyWorld.

(** Registrations that do not succeed: an object without [GetBalance], a
    mirror without methods, a codec table without entries. *)
Definition poorRun : outcome (option error) * @World unit nat :=
  setRawApiRequestHandlers valueOf buildCodec tt smallProtocol smallApi
    (Some poorObject) 3 "rawapi" emptyWorld.

Definition unmirroredRun : outcome (option error) * @World unit nat :=
  setRawApiRequestHandlers valueOf buildCodec tt noProtocol smallApi
    (Some smallObject) 3 "rawapi" emptyWorld.

Definition uncodedRun : outcome (option error) * @World unit nat :=
  setRawApiRequestHandlers valueOf emptyCodec tt smallProtocol smallApi
    (Some smallObject) 3 "rawapi" emptyWorld.

(** An API method that panics. *)
Definition faulty : @Func value nat :=
  λ args st, (Panics "runtime error: index out of range", st).

(** An API with two exported methods, its mirror and an object for it. *)
Definition GetCode : Method := mkMethod "GetCode" "" (signature "GetCode").

Definition pairApi : rtype := mkType "rawapi.pairApi" [ GetBalance; GetCode ].

Definition pairProtocol : rtype :=
  mkType "rawapi.pairProtocol"
    [ pbMethod "GetBalance" "pb.AccountRequest" "pb.BalanceResponse";
      pbMethod "GetCode" "pb.AccountRequest" "pb.CodeResponse" ].

Definition pairObject : @Object value nat :=
  mkObject "*rawapi.pairImpl" [ (GetBalance, echo); (GetCode, faulty) ].

Definition pairRun : outcome (option error) * @World unit nat :=
  setRawApiRequestHandlers valueOf buildCodec tt pairProtocol pairApi
    (Some pairObject) 3 "rawapi" emptyWorld.

(** An interface with an unexported method only. *)
Definition hiddenApi : rtype :=
  mkType "rawapi.hiddenApi" [ mkMethod "helper" rawapiPkgPath (mkFuncType [] []) ].

(** A world with a handler of shard 4 and a line in the log. *)
Definition busyWorld : @World unit nat :=
  mkWorld {[ protocolID 4 "rawapi" "GetBalance" := makeRequestHandler valueOf (Some echo) codec ]}
          [ mkLogEvent "error" (errors_New "earlier") "earlier" ].

(** The handler set that a call of [getRawApiRequestHandlers] returned. *)
Definition built (r : outcome (gmap ProtocolID (@RequestHandler unit nat) * option error))
    : gmap ProtocolID (@RequestHandler unit nat) :=
  match r with
  | Returns (requestHandlers, _) => requestHandlers
  | Panics _ => ∅
  end.

Definition smallHandlers : gmap ProtocolID (@RequestHandler unit nat) :=
  built (getRawApiRequestHandlers valueOf buildCodec smallProtocol smallApi
           (Some smallObject) 3 "rawapi").

Definition pairHandlers : gmap ProtocolID (@RequestHandler unit nat) :=
  built (getRawApiRequestHandlers valueOf buildCodec pairProtocol pairApi
           (Some pairObject) 3 "rawapi").

End Sample.

(** ** Protocol identifiers *)

Lemma protocolID_inj_method (s : ShardId) (a n1 n2 : string) :
  protocolID s a n1 = protocolID s a n2 → n1 = n2.
Proof.
  unfold protocolID. intros H.
  repeat (apply (inj (String.append _)) in H). exact H.
Qed.

Example protocolID_shard3 :
  protocolID 3 "rawapi" "GetBalance" = "/shard/3/rawapi/GetBalance".
Proof. reflexivity. Qed.

Example protocolID_shard65536 :
  protocolID 65536 "rawapi" "Call" = "/shard/65536/rawapi/Call".
Proof. reflexivity. Qed.

(** ** The exported methods of an interface type *)

(** The method lists of the two mirror types are the declared methods, put
    in the order of their names. *)
Lemma NetworkTransportProtocolRo_methods_declared :
  Methods NetworkTransportProtocolRo ≡ₚ NetworkTransportProtocolRo_declared ∧
  sortedByName (Methods NetworkTransportProtocolRo) = true.
Proof.
  split; [|reflexivity].
  apply (bool_decide_unpack _). vm_compute. exact I.
Qed.

Lemma NetworkTransportProtocol_methods_declared :
  Methods NetworkTransportProtocol ≡ₚ NetworkTransportProtocol_declared ∧
  sortedByName (Methods NetworkTransportProtocol) = true.
Proof.
  split; [|reflexivity].
  apply Permutation_app_tail, NetworkTransportProtocolRo_methods_declared.
Qed.

Lemma NetworkTransportProtocol_embeds :
  Methods NetworkTransportProtocol
  = Methods NetworkTransportProtocolRo ++
    [ pbMethod "SendTransaction" "pb.SendTransactionRequest" "pb.SendTransactionResponse" ].
Proof. reflexivity. Qed.

Lemma elem_of_exportedMethods (t : rtype) (m : Method) :
  m ∈ exportedMethods t ↔ m ∈ Methods t ∧ PkgPath m = "".
Proof.
  unfold exportedMethods, Filter, iterMethods, isExportedMethod, IsExported.
  rewrite list_elem_of_filter, Is_true_true, bool_decide_eq_true. tauto.
Qed.

Section Properties.

Context {Ctx Value St : Type}.
Variable ValueOf : Ctx → Value.
Variable newApiCodec : rtype → rtype → gmap string (@methodCodec Value) * option error.

Implicit Types (codec : gmap string (@methodCodec Value)) (mc : @methodCodec Value).
Implicit Types (o : @Object Value St) (api : option (@Object Value St)).
Implicit Types (rh : gmap ProtocolID (@RequestHandler Ctx St)) (h : @RequestHandler Ctx St).
Implicit Types (w : @World Ctx St) (m : Method) (ms : list Method).
Implicit Types (s : ShardId) (a name : string) (pid : ProtocolID).

(** *** Method lookup on an object that implements the interface *)

Lemma Implements_elem_of o (t : rtype) m :
  Implements o t = true → m ∈ Methods t → m ∈ MethodSet o.
Proof.
  unfold Implements. rewrite forallb_forall. intros Hall Hm.
  apply list_elem_of_In, Hall in Hm. by apply bool_decide_eq_true in Hm.
Qed.

Lemma MethodByName_is_Some o m :
  m ∈ MethodSet o → PkgPath m = "" → is_Some (MethodByName o (Name m)).
Proof.
  unfold MethodSet, MethodByName. intros Hm Hexp.
  apply list_elem_of_fmap in Hm as ([m' f] & -> & Hin).
  destruct (List.find _ (Bound o)) as [mf|] eqn:Hfind; [by eexists|].
  apply list_elem_of_In in Hin.
  pose proof (find_none _ _ Hfind _ Hin) as Hno. simpl in *.
  unfold IsExported in Hno.
  rewrite !bool_decide_true in Hno by done. done.
Qed.

Lemma MethodByName_bound o name (f : @Func Value St) :
  MethodByName o name = Some f →
  ∃ m, (m, f) ∈ Bound o ∧ Name m = name ∧ PkgPath m = "".
Proof.
  unfold MethodByName. intros H.
  destruct (List.find _ (Bound o)) as [[m g]|] eqn:Hfind; simplify_eq/=.
  apply find_some in Hfind as [Hin Hp]. simpl in Hp.
  apply andb_true_iff in Hp as [He Hn].
  apply bool_decide_eq_true in He, Hn.
  exists m. by rewrite <-list_elem_of_In in Hin.
Qed.

(** *** The loop that builds the handlers *)

Lemma handlersLoop_codec codec o s a ms rh rh' :
  handlersLoop ValueOf codec o s a ms rh = Returns rh' →
  ∀ m, m ∈ ms → is_Some (codec !! Name m).
Proof.
  revert rh. induction ms as [|m0 ms IH]; intros rh Hloop m Hm.
  - by apply elem_of_nil in Hm.
  - simpl in Hloop. destruct (codec !! Name m0) as [mc|] eqn:Hmc; [|done].
    apply elem_of_cons in Hm as [->|Hm]; [by rewrite Hmc|]. by eapply IH.
Qed.

Lemma handlersLoop_other codec o s a ms rh rh' pid :
  handlersLoop ValueOf codec o s a ms rh = Returns rh' →
  (∀ m, m ∈ ms → pid ≠ protocolID s a (Name m)) →
  rh' !! pid = rh !! pid.
Proof.
  revert rh. induction ms as [|m0 ms IH]; intros rh Hloop Hne.
  - simpl in Hloop. by simplify_eq.
  - simpl in Hloop. destruct (codec !! Name m0) as [mc|]; [|done].
    rewrite (IH _ Hloop) by (intros m Hm; apply Hne; by right).
    apply lookup_insert_ne. symmetry. apply Hne. by left.
Qed.

Lemma handlersLoop_kept codec o s a ms rh rh' name mc :
  handlersLoop ValueOf codec o s a ms rh = Returns rh' →
  codec !! name = Some mc →
  rh !! protocolID s a name = Some (makeRequestHandler ValueOf (MethodByName o name) mc) →
  rh' !! protocolID s a name = Some (makeRequestHandler ValueOf (MethodByName o name) mc).
Proof.
  revert rh. induction ms as [|m0 ms IH]; intros rh Hloop Hmc Hrh.
  - simpl in Hloop. by simplify_eq.
  - simpl in Hloop. destruct (codec !! Name m0) as [mc0|] eqn:Hmc0; [|done].
    apply (IH _ Hloop Hmc).
    destruct (decide (Name m0 = name)) as [Heq|Hne].
    + rewrite Heq in *. simplify_eq. apply lookup_insert_eq.
    + rewrite lookup_insert_ne; [done|].
      intros Hpid. by apply protocolID_inj_method in Hpid.
Qed.

Lemma handlersLoop_installed codec o s a ms rh rh' m mc :
  handlersLoop ValueOf codec o s a ms rh = Returns rh' →
  m ∈ ms → codec !! Name m = Some mc →
  rh' !! protocolID s a (Name m)
    = Some (makeRequestHandler ValueOf (MethodByName o (Name m)) mc).
Proof.
  revert rh. induction ms as [|m0 ms IH]; intros rh Hloop Hm Hmc.
  - by apply elem_of_nil in Hm.
  - simpl in Hloop. destruct (codec !! Name m0) as [mc0|] eqn:Hmc0; [|done].
    apply elem_of_cons in Hm as [->|Hm]; [|by eapply IH].
    simplify_eq. eapply handlersLoop_kept; [done..|]. apply lookup_insert_eq.
Qed.

Lemma handlersLoop_origin codec o s a ms rh rh' pid h :
  handlersLoop ValueOf codec o s a ms rh = Returns rh' →
  rh' !! pid = Some h →
  rh !! pid = Some h ∨
  ∃ m mc, m ∈ ms ∧ codec !! Name m = Some mc ∧ pid = protocolID s a (Name m) ∧
          h = makeRequestHandler ValueOf (MethodByName o (Name m)) mc.
Proof.
  revert rh. induction ms as [|m0 ms IH]; intros rh Hloop Hh.
  - simpl in Hloop. simplify_eq. by left.
  - simpl in Hloop. destruct (codec !! Name m0) as [mc0|] eqn:Hmc0; [|done].
    destruct (IH _ Hloop Hh) as [Hin|(m & mc & Hm & Hmc & -> & ->)].
    + apply lookup_insert_Some in Hin as [[<- <-]|[_ Hin]]; [|by left].
      right. exists m0, mc0. split_and!; [by left|done..].
    + right. exists m, mc. split_and!; [by right|done..].
Qed.

Lemma handlersLoop_total codec o s a ms rh :
  (∀ m, m ∈ ms → is_Some (codec !! Name m)) →
  ∃ rh', handlersLoop ValueOf codec o s a ms rh = Returns rh'.
Proof.
  revert rh. induction ms as [|m0 ms IH]; intros rh Hall; [by eexists|].
  simpl. destruct (Hall m0) as [mc ->]; [by left|].
  apply IH. intros m Hm. apply Hall. by right.
Qed.

Lemma handlersLoop_missing codec o s a ms rh m :
  m ∈ ms → codec !! Name m = None →
  ∃ m', m' ∈ ms ∧ codec !! Name m' = None ∧
    handlersLoop ValueOf codec o s a ms rh
      = Panics ("Appropriate codec is not found for method " +:+ Name m').
Proof.
  revert rh. induction ms as [|m0 ms IH]; intros rh Hm Hnone.
  - by apply elem_of_nil in Hm.
  - simpl. destruct (codec !! Name m0) as [mc0|] eqn:Hmc0.
    + apply elem_of_cons in Hm as [->|Hm]; [congruence|].
      destruct (IH (<[protocolID s a (Name m0) :=
                       makeRequestHandler ValueOf (MethodByName o (Name m0)) mc0]> rh) Hm Hnone)
        as (m' & Hm' & Hn' & ->).
      exists m'. split_and!; [by right|done..].
    + exists m0. split_and!; [by left|done..].
Qed.

(** *** Installing the handlers in the manager *)

Lemma installHandlers_logged (ctx : Ctx) (entries : list (ProtocolID * @RequestHandler Ctx St)) w :
  logged (installHandlers ctx entries w) = logged w.
Proof. revert w. induction entries as [|e l IH]; intros w; [done|]. simpl. by rewrite IH. Qed.

Lemma installHandlers_handlers (ctx : Ctx) (entries : list (ProtocolID * @RequestHandler Ctx St)) w :
  NoDup entries.*1 →
  handlers (installHandlers ctx entries w) = list_to_map entries ∪ handlers w.
Proof.
  revert w. induction entries as [|[k h] l IH]; intros w Hnd.
  - simpl. by rewrite (left_id_L ∅ (∪)).
  - apply NoDup_cons in Hnd as [Hk Hnd]. simpl.
    rewrite (IH _ Hnd). simpl.
    rewrite <-insert_union_r by by apply not_elem_of_list_to_map_1.
    by rewrite insert_union_l.
Qed.

(** Go ranges over [requestHandlers] in an order of its own choosing: the
    manager ends with the same table whatever the order. *)
Lemma installHandlers_order (ctx : Ctx) rh (entries : list (ProtocolID * @RequestHandler Ctx St)) w :
  entries ≡ₚ map_to_list rh →
  installHandlers ctx entries w = mkWorld (rh ∪ handlers w) (logged w).
Proof.
  intros Hperm.
  assert (NoDup entries.*1) as Hnd.
  { rewrite Hperm. apply NoDup_fst_map_to_list. }
  pose proof (installHandlers_handlers ctx entries w Hnd) as Hh.
  pose proof (installHandlers_logged ctx entries w) as Hl.
  rewrite (list_to_map_proper _ _ Hnd Hperm), list_to_map_to_list in Hh.
  destruct (installHandlers ctx entries w). simpl in *. by subst.
Qed.

(** *** The outcomes of building the handler set *)

Lemma getRawApiRequestHandlers_built (proto t : rtype) api s a rh :
  getRawApiRequestHandlers ValueOf newApiCodec proto t api s a = Returns (rh, None) →
  ∃ o codec, api = Some o ∧ Implements o t = true ∧
    newApiCodec t proto = (codec, None) ∧
    handlersLoop ValueOf codec o s a (exportedMethods t) ∅ = Returns rh.
Proof.
  unfold getRawApiRequestHandlers. destruct api as [o|]; [|done].
  destruct (Implements o t) eqn:Himpl; [|done]. simpl.
  destruct (newApiCodec t proto) as [codec [e|]] eqn:Hcodec; [done|].
  fold (exportedMethods t).
  destruct (handlersLoop _ _ _ _ _ _ _) as [rh'|] eqn:Hloop; [|done].
  simpl. intros [= <-]. by exists o, codec.
Qed.

Lemma getRawApiRequestHandlers_error (proto t : rtype) api s a rh (e : error) :
  getRawApiRequestHandlers ValueOf newApiCodec proto t api s a = Returns (rh, Some e) →
  ∃ o codec cause, api = Some o ∧ Implements o t = true ∧
    newApiCodec t proto = (codec, Some cause) ∧
    rh = ∅ ∧ e = fmt_Errorf_ww errRequestHandlerCreation cause.
Proof.
  unfold getRawApiRequestHandlers. destruct api as [o|]; [|done].
  destruct (Implements o t) eqn:Himpl; [|done]. simpl.
  destruct (newApiCodec t proto) as [codec [cause|]] eqn:Hcodec.
  - intros [= <- <-]. by exists o, codec, cause.
  - destruct (handlersLoop _ _ _ _ _ _ _); done.
Qed.

Lemma getRawApiRequestHandlers_panic (proto t : rtype) api s a msg :
  getRawApiRequestHandlers ValueOf newApiCodec proto t api s a = Panics msg →
  api = None ∨
  (∃ o, api = Some o ∧ Implements o t = false ∧
        msg = "api does not implement " +:+ String_ t) ∨
  (∃ o codec m, api = Some o ∧ Implements o t = true ∧
        newApiCodec t proto = (codec, None) ∧
        m ∈ exportedMethods t ∧ codec !! Name m = None ∧
        msg = "Appropriate codec is not found for method " +:+ Name m).
Proof.
  unfold getRawApiRequestHandlers. destruct api as [o|]; [|by left].
  destruct (Implements o t) eqn:Himpl; simpl.
  2:{ intros [= <-]. right; left. by exists o. }
  destruct (newApiCodec t proto) as [codec [cause|]] eqn:Hcodec; [done|].
  fold (exportedMethods t). intros Hp. right; right.
  destruct (decide (Forall (λ m, is_Some (codec !! Name m)) (exportedMethods t)))
    as [Hall|Hex].
  - rewrite Forall_forall in Hall.
    destruct (handlersLoop_total codec o s a _ ∅ Hall) as [rh Hrh].
    by rewrite Hrh in Hp.
  - apply not_Forall_Exists in Hex; [|apply _].
    apply Exists_exists in Hex as (m & Hm & Hnone).
    apply eq_None_not_Some in Hnone.
    destruct (handlersLoop_missing codec o s a _ ∅ m Hm Hnone)
      as (m' & Hm' & Hn' & Hloop).
    rewrite Hloop in Hp. simpl in Hp. injection Hp as <-.
    by exists o, codec, m'.
Qed.

(** *** Registration that succeeds *)

Lemma setRawApiRequestHandlers_installed (ctx : Ctx) (proto t : rtype) api s a w w' :
  setRawApiRequestHandlers ValueOf newApiCodec ctx proto t api s a w = (Returns None, w') →
  ∃ rh, getRawApiRequestHandlers ValueOf newApiCodec proto t api s a = Returns (rh, None) ∧
        w' = mkWorld (rh ∪ handlers w) (logged w).
Proof.
  unfold setRawApiRequestHandlers.
  destruct (getRawApiRequestHandlers _ _ _ _ _ _ _) as [[rh [e|]]|msg]; [done| |done].
  intros [= <-]. exists rh. split; [done|]. by apply installHandlers_order.
Qed.

(** The handler that a registration leaves behind for an exported method:
    the bound method of that name wrapped with the codec entry of that
    name. *)
Lemma registered_handler (ctx : Ctx) (proto t : rtype) api s a w w' m :
  setRawApiRequestHandlers ValueOf newApiCodec ctx proto t api s a w = (Returns None, w') →
  m ∈ exportedMethods t →
  ∃ o codec mc (f : @Func Value St),
    api = Some o ∧ Implements o t = true ∧ newApiCodec t proto = (codec, None) ∧
    codec !! Name m = Some mc ∧ MethodByName o (Name m) = Some f ∧
    handlers w' !! protocolID s a (Name m) = Some (makeRequestHandler ValueOf (Some f) mc).
Proof.
  intros Hset Hm.
  apply setRawApiRequestHandlers_installed in Hset as (rh & Hget & ->).
  apply getRawApiRequestHandlers_built in Hget as (o & codec & -> & Himpl & Hcodec & Hloop).
  destruct (handlersLoop_codec _ _ _ _ _ _ _ Hloop m Hm) as [mc Hmc].
  pose proof Hm as Hm'. apply elem_of_exportedMethods in Hm' as [Hin Hexp].
  destruct (MethodByName_is_Some o m) as [f Hf]; [by eapply Implements_elem_of|done|].
  exists o, codec, mc, f. split_and!; try done.
  simpl. apply lookup_union_Some_raw. left.
  rewrite <-Hf. by eapply handlersLoop_installed.
Qed.

(** *** Registration that fails *)

Lemma setRawApiRequestHandlers_untouched (ctx : Ctx) (proto t : rtype) api s a w pid :
  (∀ m, m ∈ exportedMethods t → pid ≠ protocolID s a (Name m)) →
  handlers (setRawApiRequestHandlers ValueOf newApiCodec ctx proto t api s a w).2 !! pid
    = handlers w !! pid.
Proof.
  intros Hne. unfold setRawApiRequestHandlers.
  destruct (getRawApiRequestHandlers _ _ _ _ _ _ _) as [[rh [e|]]|msg] eqn:Hget; [done| |done].
  simpl. rewrite (installHandlers_order ctx rh) by done. simpl.
  apply getRawApiRequestHandlers_built in Hget as (o & codec & -> & _ & _ & Hloop).
  rewrite lookup_union_r; [done|].
  rewrite (handlersLoop_other _ _ _ _ _ _ _ _ Hloop Hne). apply lookup_empty.
Qed.

Lemma setRawApiRequestHandlers_failed (ctx : Ctx) (proto t : rtype) api s a w :
  (setRawApiRequestHandlers ValueOf newApiCodec ctx proto t api s a w).1 ≠ Returns None →
  handlers (setRawApiRequestHandlers ValueOf newApiCodec ctx proto t api s a w).2 = handlers w.
Proof.
  unfold setRawApiRequestHandlers.
  by destruct (getRawApiRequestHandlers _ _ _ _ _ _ _) as [[rh [e|]]|msg].
Qed.

(** *** One request through a handler *)

Lemma makeRequestHandler_decode_error (v : option (@Func Value St)) mc
    (ctx : Ctx) (request : bytes) (st : St) (args : list Value) (e : error) :
  unpackRequest mc request = (args, Some e) →
  makeRequestHandler ValueOf v mc ctx request st = (Returns (packError mc e, None), st).
Proof. unfold makeRequestHandler. by intros ->. Qed.

Lemma makeRequestHandler_decoded (v : option (@Func Value St)) mc
    (ctx : Ctx) (request : bytes) (st : St) (args : list Value) :
  unpackRequest mc request = (args, None) →
  makeRequestHandler ValueOf v mc ctx request st =
    match Call v (ValueOf ctx :: args) st with
    | (Returns results, st') => (Returns (packResponse mc results), st')
    | (Panics msg, st') => (Panics msg, st')
    end.
Proof. unfold makeRequestHandler. by intros ->. Qed.

(** ** The claims *)

(** C1: a registration that succeeds adds to the manager exactly the
    handlers of the exported methods of the API type: every exported method
    [m] has a handler under [/shard/<s>/<a>/<m>], two exported methods share
    an identifier only when they share their name, an identifier that is
    not the identifier of an exported method is left as it was, and an
    unexported method gets no handler. *)
Theorem registration_installs_exported_methods
    (ctx : Ctx) (proto t : rtype) api s a w w' :
  setRawApiRequestHandlers ValueOf newApiCodec ctx proto t api s a w = (Returns None, w') →
  ∃ rh,
    handlers w' = rh ∪ handlers w ∧
    (∀ pid, is_Some (rh !! pid) ↔
            ∃ m, m ∈ Methods t ∧ isExportedMethod m = true ∧
                 pid = "/shard/" +:+ pretty s +:+ "/" +:+ a +:+ "/" +:+ Name m) ∧
    (∀ m m', m ∈ exportedMethods t → m' ∈ exportedMethods t →
             protocolID s a (Name m) = protocolID s a (Name m') → Name m = Name m') ∧
    (∀ m, m ∈ Methods t → isExportedMethod m = false →
          (∀ m', m' ∈ exportedMethods t → Name m' ≠ Name m) →
          rh !! protocolID s a (Name m) = None).
Proof.
  intros Hset.
  apply setRawApiRequestHandlers_installed in Hset as (rh & Hget & ->).
  apply getRawApiRequestHandlers_built in Hget as (o & codec & -> & Himpl & Hcodec & Hloop).
  exists rh. split_and!; [done| | |].
  - intros pid. split.
    + intros [h Hh].
      destruct (handlersLoop_origin _ _ _ _ _ _ _ _ _ Hloop Hh)
        as [Hempty|(m & mc & Hm & _ & -> & _)]; [by rewrite lookup_empty in Hempty|].
      apply elem_of_exportedMethods in Hm as [Hin Hexp].
      exists m. split_and!; [done| |done].
      unfold isExportedMethod, IsExported. by apply bool_decide_eq_true.
    + intros (m & Hin & Hexp & ->).
      assert (m ∈ exportedMethods t) as Hm.
      { apply elem_of_exportedMethods. split; [done|].
        by apply bool_decide_eq_true in Hexp. }
      destruct (handlersLoop_codec _ _ _ _ _ _ _ Hloop m Hm) as [mc Hmc].
      eexists. by eapply handlersLoop_installed.
  - intros m m' _ _. apply protocolID_inj_method.
  - intros m Hin Hunexp Hnames.
    rewrite (handlersLoop_other _ _ _ _ _ _ _ _ Hloop); [apply lookup_empty|].
    intros m' Hm' Heq. apply protocolID_inj_method in Heq. by apply (Hnames m').
Qed.

(** C2: after a registration that succeeds, the handler of an exported
    method answers a request that its codec fails to decode with the packed
    error of the codec and a nil error; it does not panic and the API method
    is not called (the shard is as it was). *)
Theorem registered_handler_rejects_malformed_request
    (ctx : Ctx) (proto t : rtype) api s a w w' m codec mc
    (ctx' : Ctx) (request : bytes) (st : St) (args : list Value) (e : error) :
  setRawApiRequestHandlers ValueOf newApiCodec ctx proto t api s a w = (Returns None, w') →
  m ∈ exportedMethods t →
  newApiCodec t proto = (codec, None) →
  codec !! Name m = Some mc →
  unpackRequest mc request = (args, Some e) →
  ∃ h, handlers w' !! protocolID s a (Name m) = Some h ∧
       h ctx' request st = (Returns (packError mc e, None), st).
Proof.
  intros Hset Hm Hcodec Hmc Hreq.
  destruct (registered_handler _ _ _ _ _ _ _ _ _ Hset Hm)
    as (o & codec' & mc' & f & -> & _ & Hcodec' & Hmc' & Hf & Hh).
  rewrite Hcodec in Hcodec'. simplify_eq.
  eexists. split; [done|]. by eapply makeRequestHandler_decode_error.
Qed.

(** C4: after a registration that succeeds, the handler of an exported
    method calls, on a request that its codec decodes, the bound method of
    that name with the context first and the decoded arguments after it, and
    returns what [packResponse] makes of the results of the call; a panic
    of the method is the panic of the handler. *)
Theorem registered_handler_calls_bound_method
    (ctx : Ctx) (proto t : rtype) api s a w w' m o codec mc (f : @Func Value St)
    (ctx' : Ctx) (request : bytes) (st : St) (args : list Value) :
  setRawApiRequestHandlers ValueOf newApiCodec ctx proto t api s a w = (Returns None, w') →
  m ∈ exportedMethods t →
  api = Some o →
  MethodByName o (Name m) = Some f →
  newApiCodec t proto = (codec, None) →
  codec !! Name m = Some mc →
  unpackRequest mc request = (args, None) →
  ∃ h, handlers w' !! protocolID s a (Name m) = Some h ∧
       h ctx' request st =
         match f ([ValueOf ctx'] ++ args) st with
         | (Returns results, st') => (Returns (packResponse mc results), st')
         | (Panics msg, st') => (Panics msg, st')
         end.
Proof.
  intros Hset Hm -> Hf Hcodec Hmc Hreq.
  destruct (registered_handler _ _ _ _ _ _ _ _ _ Hset Hm)
    as (o' & codec' & mc' & f' & Ho & _ & Hcodec' & Hmc' & Hf' & Hh).
  rewrite Hcodec in Hcodec'. simplify_eq.
  eexists. split; [done|].
  by rewrite (makeRequestHandler_decoded _ _ _ _ _ _ Hreq).
Qed.

(** C10: when the request decodes and the method returns, but
    [packResponse] fails on the results, the handler returns the pair of
    [packResponse], its error included, as it is: the error reaches the
    transport and the answer is not the packed error with a nil error. *)
Theorem registered_handler_returns_encoding_error
    (ctx : Ctx) (proto t : rtype) api s a w w' m o codec mc (f : @Func Value St)
    (ctx' : Ctx) (request : bytes) (st st' : St) (args results : list Value)
    (response : bytes) (e : error) :
  setRawApiRequestHandlers ValueOf newApiCodec ctx proto t api s a w = (Returns None, w') →
  m ∈ exportedMethods t →
  api = Some o →
  MethodByName o (Name m) = Some f →
  newApiCodec t proto = (codec, None) →
  codec !! Name m = Some mc →
  unpackRequest mc request = (args, None) →
  f ([ValueOf ctx'] ++ args) st = (Returns results, st') →
  packResponse mc results = (response, Some e) →
  ∃ h, handlers w' !! protocolID s a (Name m) = Some h ∧
       h ctx' request st = (Returns (response, Some e), st') ∧
       ∀ e', h ctx' request st ≠ (Returns (packError mc e', None), st').
Proof.
  intros Hset Hm -> Hf Hcodec Hmc Hreq Hcall Hpack.
  destruct (registered_handler _ _ _ _ _ _ _ _ _ Hset Hm)
    as (o' & codec' & mc' & f' & Ho & _ & Hcodec' & Hmc' & Hf' & Hh).
  rewrite Hcodec in Hcodec'. simplify_eq.
  eexists. split; [done|].
  rewrite (makeRequestHandler_decoded _ _ _ _ _ _ Hreq). simpl in *.
  rewrite Hcall, Hpack. split; [done|]. intros e'. congruence.
Qed.

(** C5, as the code has it: a failure of the codec builder is returned as
    an error, wrapped and logged; a failure of the guards while the handler
    set is built (a nil API, an API that does not implement the interface,
    an exported method without a codec entry) is a panic, not an error; and
    whenever registration does not return nil, be it an error or a panic,
    the handler table of the manager is the one it was given. *)
Theorem failed_registration_installs_nothing
    (ctx : Ctx) (proto t : rtype) api s a w :
  (∀ o codec cause,
      api = Some o → Implements o t = true →
      newApiCodec t proto = (codec, Some cause) →
      setRawApiRequestHandlers ValueOf newApiCodec ctx proto t api s a w
        = (Returns (Some (fmt_Errorf_ww errRequestHandlerCreation cause)),
           logError (fmt_Errorf_ww errRequestHandlerCreation cause)
             "Failed to create request handlers" w)) ∧
  (∀ rh e,
      getRawApiRequestHandlers ValueOf newApiCodec proto t api s a = Returns (rh, Some e) →
      setRawApiRequestHandlers ValueOf newApiCodec ctx proto t api s a w
        = (Returns (Some e), logError e "Failed to create request handlers" w) ∧
      handlers (logError e "Failed to create request handlers" w) = handlers w) ∧
  (∀ msg,
      getRawApiRequestHandlers ValueOf newApiCodec proto t api s a = Panics msg →
      setRawApiRequestHandlers ValueOf newApiCodec ctx proto t api s a w = (Panics msg, w)) ∧
  (api = None →
      setRawApiRequestHandlers ValueOf newApiCodec ctx proto t api s a w
        = (Panics "reflect: call of reflect.Value.Type on zero Value", w)) ∧
  (∀ o,
      api = Some o → Implements o t = false →
      setRawApiRequestHandlers ValueOf newApiCodec ctx proto t api s a w
        = (Panics ("api does not implement " +:+ String_ t), w)) ∧
  (∀ o codec m,
      api = Some o → Implements o t = true →
      newApiCodec t proto = (codec, None) →
      m ∈ exportedMethods t → codec !! Name m = None →
      ∃ m', m' ∈ exportedMethods t ∧ codec !! Name m' = None ∧
        setRawApiRequestHandlers ValueOf newApiCodec ctx proto t api s a w
          = (Panics ("Appropriate codec is not found for method " +:+ Name m'), w)) ∧
  ((setRawApiRequestHandlers ValueOf newApiCodec ctx proto t api s a w).1 ≠ Returns None →
   handlers (setRawApiRequestHandlers ValueOf newApiCodec ctx proto t api s a w).2
     = handlers w).
Proof.
  split_and!.
  - intros o codec cause -> Himpl Hcodec.
    unfold setRawApiRequestHandlers, getRawApiRequestHandlers.
    by rewrite Himpl, Hcodec.
  - intros rh e Hget. unfold setRawApiRequestHandlers. by rewrite Hget.
  - intros msg Hget. unfold setRawApiRequestHandlers. by rewrite Hget.
  - by intros ->.
  - intros o -> Himpl. unfold setRawApiRequestHandlers, getRawApiRequestHandlers.
    by rewrite Himpl.
  - intros o codec m -> Himpl Hcodec Hm Hnone.
    destruct (handlersLoop_missing codec o s a _ ∅ m Hm Hnone) as (m' & Hm' & Hn' & Hloop).
    exists m'. split_and!; [done..|].
    unfold setRawApiRequestHandlers, getRawApiRequestHandlers.
    rewrite Himpl, Hcodec. simpl. fold (exportedMethods t). by rewrite Hloop.
  - apply setRawApiRequestHandlers_failed.
Qed.

(** C6, as the code has it: registration ends in one of five ways.  It
    returns nil; or the codec builder failed and it returns that failure
    wrapped in [errRequestHandlerCreation]; or it panics, because the API
    does not implement the selected interface, because an exported method
    has no entry in the codec table, or because the API is nil. *)
Theorem registration_outcomes (ctx : Ctx) (proto t : rtype) api s a w :
  let r := (setRawApiRequestHandlers ValueOf newApiCodec ctx proto t api s a w).1 in
  (∃ o codec, api = Some o ∧ Implements o t = true ∧
      newApiCodec t proto = (codec, None) ∧
      Forall (λ m, is_Some (codec !! Name m)) (exportedMethods t) ∧
      r = Returns None) ∨
  (∃ o codec cause, api = Some o ∧ Implements o t = true ∧
      newApiCodec t proto = (codec, Some cause) ∧
      r = Returns (Some (fmt_Errorf_ww errRequestHandlerCreation cause)) ∧
      Error (fmt_Errorf_ww errRequestHandlerCreation cause)
        = "failed to create request handler: " +:+ Error cause) ∨
  (∃ o, api = Some o ∧ Implements o t = false ∧
      r = Panics ("api does not implement " +:+ String_ t)) ∨
  (∃ o codec m, api = Some o ∧ Implements o t = true ∧
      newApiCodec t proto = (codec, None) ∧
      m ∈ exportedMethods t ∧ codec !! Name m = None ∧
      r = Panics ("Appropriate codec is not found for method " +:+ Name m)) ∨
  (api = None ∧ r = Panics "reflect: call of reflect.Value.Type on zero Value").
Proof.
  unfold setRawApiRequestHandlers.
  destruct (getRawApiRequestHandlers _ _ _ _ _ _ _) as [[rh [e|]]|msg] eqn:Hget; simpl.
  - apply getRawApiRequestHandlers_error in Hget
      as (o & codec & cause & -> & Himpl & Hcodec & _ & ->).
    right; left. by exists o, codec, cause.
  - apply getRawApiRequestHandlers_built in Hget as (o & codec & -> & Himpl & Hcodec & Hloop).
    left. exists o, codec. split_and!; try done.
    apply Forall_forall. by eapply handlersLoop_codec.
  - pose proof Hget as Hp.
    apply getRawApiRequestHandlers_panic in Hp
      as [->|[(o & -> & Himpl & ->)|(o & codec & m & -> & Himpl & Hcodec & Hm & Hnone & ->)]].
    + do 4 right. split; [done|]. simpl in Hget. congruence.
    + right; right; left. by exists o.
    + do 3 right; left. by exists o, codec, m.
Qed.

(** C7: after a registration that succeeds the codec table has an entry for
    every exported method of the API type, and the handler of the method is
    built from that entry; a table that lacks an entry for an exported
    method makes registration panic before anything is installed. *)
Theorem codec_table_complete (ctx : Ctx) (proto t : rtype) api s a w :
  (∀ w',
      setRawApiRequestHandlers ValueOf newApiCodec ctx proto t api s a w = (Returns None, w') →
      ∃ o codec, api = Some o ∧ newApiCodec t proto = (codec, None) ∧
        ∀ m, m ∈ exportedMethods t →
          ∃ mc, codec !! Name m = Some mc ∧
                handlers w' !! protocolID s a (Name m)
                  = Some (makeRequestHandler ValueOf (MethodByName o (Name m)) mc)) ∧
  (∀ o codec m,
      api = Some o → Implements o t = true →
      newApiCodec t proto = (codec, None) →
      m ∈ exportedMethods t → codec !! Name m = None →
      ∃ m', m' ∈ exportedMethods t ∧ codec !! Name m' = None ∧
        setRawApiRequestHandlers ValueOf newApiCodec ctx proto t api s a w
          = (Panics ("Appropriate codec is not found for method " +:+ Name m'), w)).
Proof.
  split.
  - intros w' Hset.
    pose proof Hset as Hinst.
    apply setRawApiRequestHandlers_installed in Hinst as (rh & Hget & _).
    apply getRawApiRequestHandlers_built in Hget as (o & codec & -> & _ & Hcodec & _).
    exists o, codec. split_and!; [done..|]. intros m Hm.
    destruct (registered_handler _ _ _ _ _ _ _ _ _ Hset Hm)
      as (o' & codec' & mc & f & Ho & _ & Hcodec' & Hmc & Hf & Hh).
    rewrite Hcodec in Hcodec'. simplify_eq. exists mc. by rewrite Hf.
  - intros o codec m -> Himpl Hcodec Hm Hnone.
    destruct (handlersLoop_missing codec o s a _ ∅ m Hm Hnone) as (m' & Hm' & Hn' & Hloop).
    exists m'. split_and!; [done..|].
    unfold setRawApiRequestHandlers, getRawApiRequestHandlers.
    rewrite Himpl, Hcodec. simpl. fold (exportedMethods t). by rewrite Hloop.
Qed.

(** *** The two capability levels *)

Variable apiSignature : string → FuncType.
Variable apiInternal : list (string * FuncType).

Lemma filter_exported_internal (ds : list (string * FuncType)) :
  filter isExportedMethod (internalMethod <$> ds) = [].
Proof.
  induction ds as [|d ds IH]; [done|].
  rewrite fmap_cons, filter_cons, decide_False; [done|].
  by vm_compute.
Qed.

Lemma filter_exported_api (mirrors : list Method) :
  filter isExportedMethod (apiMethodOf apiSignature <$> mirrors)
  = apiMethodOf apiSignature <$> mirrors.
Proof.
  induction mirrors as [|m ms IH]; [done|].
  rewrite fmap_cons, filter_cons, decide_True, IH; [done|].
  by vm_compute.
Qed.

Lemma exportedMethods_api (name : string) (mirrors : list Method) :
  exportedMethods
    (mkType name ((apiMethodOf apiSignature <$> mirrors) ++ (internalMethod <$> apiInternal)))
  = apiMethodOf apiSignature <$> mirrors.
Proof.
  unfold exportedMethods, Filter, iterMethods. simpl.
  rewrite filter_app, filter_exported_internal, filter_exported_api.
  apply (right_id_L [] (++)).
Qed.

Lemma SendTransaction_not_read_only (m : Method) :
  m ∈ exportedMethods (ShardApiRo apiSignature apiInternal) → Name m ≠ "SendTransaction".
Proof.
  unfold ShardApiRo. rewrite exportedMethods_api.
  intros (mirror & -> & Hin)%list_elem_of_fmap. simpl.
  revert mirror Hin. apply Forall_forall.
  unfold NetworkTransportProtocolRo, NetworkTransportProtocolRo_methods. simpl.
  repeat (constructor; [done|]). constructor.
Qed.

(** C3: with the read-only flag, registration works on the read-only pair
    of interfaces and leaves the identifier of [SendTransaction] as it found
    it, whatever its outcome; a registration with full capability that
    succeeds leaves a handler for [SendTransaction] and for every method of
    the read-only mirror. *)
Theorem capability_separation (ctx : Ctx) s :
  (∀ api w,
      SetRawApiRequestHandlers ValueOf newApiCodec apiSignature apiInternal ctx s api true w
        = setRawApiRequestHandlers ValueOf newApiCodec ctx NetworkTransportProtocolRo
            (ShardApiRo apiSignature apiInternal) api s "rawapi" w ∧
      handlers (SetRawApiRequestHandlers ValueOf newApiCodec apiSignature apiInternal
                  ctx s api true w).2 !! protocolID s "rawapi" "SendTransaction"
        = handlers w !! protocolID s "rawapi" "SendTransaction") ∧
  (∀ api w w',
      SetRawApiRequestHandlers ValueOf newApiCodec apiSignature apiInternal ctx s api false w
        = (Returns None, w') →
      is_Some (handlers w' !! protocolID s "rawapi" "SendTransaction") ∧
      ∀ mirror, mirror ∈ Methods NetworkTransportProtocolRo →
                is_Some (handlers w' !! protocolID s "rawapi" (Name mirror))).
Proof.
  split.
  - intros api w. split; [done|].
    unfold SetRawApiRequestHandlers. apply setRawApiRequestHandlers_untouched.
    intros m Hm Heq. apply protocolID_inj_method in Heq.
    by apply (SendTransaction_not_read_only m).
  - intros api w w' Hset. unfold SetRawApiRequestHandlers in Hset.
    assert (∀ mirror, mirror ∈ Methods NetworkTransportProtocol →
              is_Some (handlers w' !! protocolID s "rawapi" (Name mirror))) as Hall.
    { intros mirror Hin.
      destruct (registered_handler _ _ _ _ _ _ _ _ (apiMethodOf apiSignature mirror) Hset)
        as (o & codec & mc & f & _ & _ & _ & _ & _ & Hh); [|by eexists].
      unfold ShardApi. rewrite exportedMethods_api. by apply list_elem_of_fmap_2. }
    split.
    + apply (Hall (pbMethod "SendTransaction" "pb.SendTransactionRequest"
                     "pb.SendTransactionResponse")).
      rewrite NetworkTransportProtocol_embeds. apply elem_of_app. right. by left.
    + intros mirror Hin. apply Hall.
      rewrite NetworkTransportProtocol_embeds. apply elem_of_app. by left.
Qed.

End Properties.

(** C8: the identifier of a method is a function of the shard, the API name
    and the method name alone.  Two registrations that share these three,
    with whatever API objects, interface types, codec builders, contexts and
    managers, install the handler of the method under the same string,
    [/shard/<s>/<a>/<m>]. *)
Theorem protocolID_deterministic
    {C1 V1 S1 C2 V2 S2 : Type} (ValueOf1 : C1 → V1) (ValueOf2 : C2 → V2)
    (builder1 : rtype → rtype → gmap string (@methodCodec V1) * option error)
    (builder2 : rtype → rtype → gmap string (@methodCodec V2) * option error)
    (ctx1 : C1) (ctx2 : C2) (proto1 proto2 t1 t2 : rtype)
    (api1 : option (@Object V1 S1)) (api2 : option (@Object V2 S2))
    (w1 w1' : @World C1 S1) (w2 w2' : @World C2 S2)
    (s : ShardId) (a : string) (m1 m2 : Method) :
  setRawApiRequestHandlers ValueOf1 builder1 ctx1 proto1 t1 api1 s a w1 = (Returns None, w1') →
  setRawApiRequestHandlers ValueOf2 builder2 ctx2 proto2 t2 api2 s a w2 = (Returns None, w2') →
  m1 ∈ exportedMethods t1 → m2 ∈ exportedMethods t2 → Name m1 = Name m2 →
  ∃ pid, pid = "/shard/" +:+ pretty s +:+ "/" +:+ a +:+ "/" +:+ Name m1 ∧
         protocolID s a (Name m1) = pid ∧ protocolID s a (Name m2) = pid ∧
         is_Some (handlers w1' !! pid) ∧ is_Some (handlers w2' !! pid).
Proof.
  intros Hset1 Hset2 Hm1 Hm2 Hname.
  destruct (registered_handler _ _ _ _ _ _ _ _ _ _ _ Hset1 Hm1)
    as (? & ? & ? & ? & _ & _ & _ & _ & _ & Hh1).
  destruct (registered_handler _ _ _ _ _ _ _ _ _ _ _ Hset2 Hm2)
    as (? & ? & ? & ? & _ & _ & _ & _ & _ & Hh2).
  exists (protocolID s a (Name m1)). split_and!; [done|done|by rewrite Hname|by eexists|].
  rewrite Hname. by eexists.
Qed.

(** ** The statements on the sample instance *)

Section OnSample.

Import Sample.

Lemma registration_installs_exported_methods_witness :
  ∃ rh, handlers smallRun.2 = rh ∪ handlers emptyWorld ∧
        is_Some (rh !! "/shard/3/rawapi/GetBalance") ∧
        rh !! "/shard/3/rawapi/helper" = None.
Proof.
  destruct (registration_installs_exported_methods valueOf buildCodec tt smallProtocol
              smallApi (Some smallObject) 3 "rawapi" emptyWorld smallRun.2)
    as (rh & Hrh & Hids & _ & Hun).
  { vm_compute. reflexivity. }
  exists rh. split; [exact Hrh|]. split.
  - apply Hids. exists GetBalance. split; [left|split; reflexivity].
  - apply (Hun (mkMethod "helper" rawapiPkgPath (mkFuncType [] []))).
    + right. left.
    + reflexivity.
    + intros m' Hm'. vm_compute in Hm'.
      apply list_elem_of_singleton in Hm'. subst m'. discriminate.
Defined.

Lemma registered_handler_rejects_malformed_request_witness :
  ∃ h, handlers smallRun.2 !! protocolID 3 "rawapi" "GetBalance" = Some h ∧
       h tt [] 5 = (Returns ([Byte.xff], None), 5).
Proof.
  apply (registered_handler_rejects_malformed_request valueOf buildCodec tt smallProtocol
           smallApi (Some smallObject) 3 "rawapi" emptyWorld smallRun.2 GetBalance
           (buildCodec smallApi smallProtocol).1 codec tt [] 5 []
           (errors_New "empty request")).
  - vm_compute. reflexivity.
  - vm_compute. left.
  - vm_compute. reflexivity.
  - vm_compute. reflexivity.
  - reflexivity.
Defined.

Lemma registered_handler_calls_bound_method_witness :
  ∃ h, handlers smallRun.2 !! protocolID 3 "rawapi" "GetBalance" = Some h ∧
       h tt [Byte.x2a] 5 = (Returns ([Byte.x00; Byte.x2a], None), 6).
Proof.
  destruct (registered_handler_calls_bound_method valueOf buildCodec tt smallProtocol
              smallApi (Some smallObject) 3 "rawapi" emptyWorld smallRun.2 GetBalance
              smallObject (buildCodec smallApi smallProtocol).1 codec echo tt [Byte.x2a] 5
              [VBytes [Byte.x2a]])
    as (h & Hh & Hcall).
  - vm_compute. reflexivity.
  - vm_compute. left.
  - reflexivity.
  - vm_compute. reflexivity.
  - vm_compute. reflexivity.
  - vm_compute. reflexivity.
  - reflexivity.
  - exists h. split; [exact Hh|]. rewrite Hcall. reflexivity.
Defined.

Lemma registered_handler_returns_encoding_error_witness :
  ∃ h, handlers oddRun.2 !! protocolID 7 "rawapi" "Odd" = Some h ∧
       h tt [Byte.x2a] 0 = (Returns ([], Some (errors_New "unexpected results")), 1) ∧
       ∀ e', h tt [Byte.x2a] 0 ≠ (Returns (packError codec e', None), 1).
Proof.
  apply (registered_handler_returns_encoding_error valueOf buildCodec tt oddProtocol
           oddApi (Some oddObject) 7 "rawapi" emptyWorld oddRun.2 Odd
           oddObject (buildCodec oddApi oddProtocol).1 codec odd tt [Byte.x2a] 0 1
           [VBytes [Byte.x2a]] [VCtx] [] (errors_New "unexpected results")).
  - vm_compute. reflexivity.
  - vm_compute. left.
  - reflexivity.
  - vm_compute. reflexivity.
  - vm_compute. reflexivity.
  - vm_compute. reflexivity.
  - reflexivity.
  - reflexivity.
  - reflexivity.
Defined.

Lemma failed_registration_installs_nothing_witness :
  unmirroredRun
    = (Returns (Some (fmt_Errorf_ww errRequestHandlerCreation
                        (errors_New "no protocol method for an api method"))),
       logError (fmt_Errorf_ww errRequestHandlerCreation
                   (errors_New "no protocol method for an api method"))
         "Failed to create request handlers" emptyWorld) ∧
  poorRun = (Panics "api does not implement rawapi.smallApi", emptyWorld) ∧
  (∃ m', m' ∈ exportedMethods smallApi ∧
         uncodedRun
           = (Panics ("Appropriate codec is not found for method " +:+ Name m'), emptyWorld)) ∧
  handlers unmirroredRun.2 = handlers emptyWorld ∧
  handlers poorRun.2 = handlers emptyWorld.
Proof.
  pose proof (failed_registration_installs_nothing valueOf buildCodec tt noProtocol
                smallApi (Some smallObject) 3 "rawapi" emptyWorld)
    as (Hbuild & _ & _ & _ & _ & _ & Hkeep).
  pose proof (failed_registration_installs_nothing valueOf buildCodec tt smallProtocol
                smallApi (Some poorObject) 3 "rawapi" emptyWorld)
    as (_ & _ & _ & _ & Hpoor & _ & Hpanic).
  pose proof (failed_registration_installs_nothing valueOf emptyCodec tt smallProtocol
                smallApi (Some smallObject) 3 "rawapi" emptyWorld)
    as (_ & _ & _ & _ & _ & Hentry & _).
  split_and!.
  - apply (Hbuild smallObject ∅ (errors_New "no protocol method for an api method"));
      vm_compute; reflexivity.
  - apply (Hpoor poorObject); vm_compute; reflexivity.
  - destruct (Hentry smallObject ∅ GetBalance) as (m' & Hm' & _ & Hrun).
    + reflexivity.
    + vm_compute. reflexivity.
    + reflexivity.
    + vm_compute. left.
    + reflexivity.
    + exists m'. split; [exact Hm'|exact Hrun].
  - apply Hkeep. vm_compute. discriminate.
  - apply Hpanic. vm_compute. discriminate.
Defined.

(** C5, as the claim has it, fails: building the handler set fails on the
    nil API at the entry point, on an object without [GetBalance] and on a
    codec table without entries, and registration returns no error: it
    panics. *)
Lemma handler_set_failure_returns_no_error :
  (getRawApiRequestHandlers valueOf buildCodec NetworkTransportProtocol
     (ShardApi signature internal) (None : option (@Object value nat)) 3 "rawapi"
     = Panics "reflect: call of reflect.Value.Type on zero Value" ∧
   ¬ (∃ e : error,
        (SetRawApiRequestHandlers valueOf buildCodec signature internal tt 3 None false
           emptyWorld).1 = Returns (Some e))) ∧
  (getRawApiRequestHandlers valueOf buildCodec smallProtocol smallApi (Some poorObject)
     3 "rawapi" = Panics "api does not implement rawapi.smallApi" ∧
   ¬ (∃ e : error, poorRun.1 = Returns (Some e))) ∧
  (getRawApiRequestHandlers valueOf emptyCodec smallProtocol smallApi (Some smallObject)
     3 "rawapi" = Panics "Appropriate codec is not found for method GetBalance" ∧
   ¬ (∃ e : error, uncodedRun.1 = Returns (Some e))).
Proof.
  split_and!; try (vm_compute; reflexivity);
    intros [e He]; vm_compute in He; discriminate He.
Qed.

(** C6, as the claim has it, fails: an object without [GetBalance] is
    registered for an interface with [GetBalance], and registration panics;
    it returns neither nil nor an error.  So does the entry point on the
    nil API. *)
Lemma registration_panics_on_integrity_failure :
  poorRun.1 = Panics "api does not implement rawapi.smallApi" ∧
  ¬ (∃ r : option error, poorRun.1 = Returns r) ∧
  (SetRawApiRequestHandlers valueOf buildCodec signature internal tt 3 None false
     emptyWorld).1
    = Panics "reflect: call of reflect.Value.Type on zero Value".
Proof.
  split; [vm_compute; reflexivity|]. split; [|reflexivity].
  intros [r Hr]. vm_compute in Hr. discriminate Hr.
Qed.

Lemma codec_table_complete_witness :
  (∃ o codec, Some smallObject = Some o ∧ buildCodec smallApi smallProtocol = (codec, None) ∧
     ∀ m, m ∈ exportedMethods smallApi →
       ∃ mc, codec !! Name m = Some mc ∧
             handlers smallRun.2 !! protocolID 3 "rawapi" (Name m)
               = Some (makeRequestHandler valueOf (MethodByName o (Name m)) mc)) ∧
  (∃ m', m' ∈ exportedMethods smallApi ∧
     emptyCodec smallApi smallProtocol = (∅, None) ∧
     uncodedRun = (Panics ("Appropriate codec is not found for method " +:+ Name m'),
                   emptyWorld)).
Proof.
  split.
  - apply (proj1 (codec_table_complete valueOf buildCodec tt smallProtocol smallApi
                    (Some smallObject) 3 "rawapi" emptyWorld) smallRun.2).
    vm_compute. reflexivity.
  - destruct (proj2 (codec_table_complete valueOf emptyCodec tt smallProtocol smallApi
                       (Some smallObject) 3 "rawapi" emptyWorld) smallObject ∅ GetBalance)
      as (m' & Hm' & _ & Hrun).
    + reflexivity.
    + vm_compute. reflexivity.
    + reflexivity.
    + vm_compute. left.
    + reflexivity.
    + exists m'. split; [exact Hm'|]. split; [reflexivity|exact Hrun].
Defined.

Lemma capability_separation_witness :
  handlers readOnlyRun.2 !! protocolID 3 "rawapi" "SendTransaction" = None ∧
  is_Some (handlers fullRun.2 !! protocolID 3 "rawapi" "SendTransaction") ∧
  is_Some (handlers fullRun.2 !! protocolID 3 "rawapi" "GetBalance").
Proof.
  destruct (capability_separation (St:=nat) valueOf buildCodec signature internal tt 3)
    as [Hro Hfull].
  split.
  - destruct (Hro (Some fullApi) emptyWorld) as [_ Hsame].
    unfold readOnlyRun. rewrite Hsame. reflexivity.
  - destruct (Hfull (Some fullApi) emptyWorld fullRun.2) as [Hsend Hread].
    { vm_compute. reflexivity. }
    split; [exact Hsend|].
    apply (Hread (pbMethod "GetBalance" "pb.AccountRequest" "pb.BalanceResponse")).
    do 2 right. left.
Defined.

Lemma protocolID_deterministic_witness :
  ∃ pid, pid = "/shard/3/rawapi/GetBalance" ∧
         is_Some (handlers smallRun.2 !! pid) ∧ is_Some (handlers fullRun.2 !! pid).
Proof.
  destruct (protocolID_deterministic valueOf valueOf buildCodec buildCodec tt tt
              smallProtocol NetworkTransportProtocol smallApi (ShardApi signature internal)
              (Some smallObject) (Some fullApi) emptyWorld smallRun.2 emptyWorld fullRun.2
              3 "rawapi" GetBalance GetBalance)
    as (pid & Hpid & _ & _ & H1 & H2).
  - vm_compute. reflexivity.
  - vm_compute. reflexivity.
  - vm_compute. left.
  - apply elem_of_exportedMethods. split; [|reflexivity].
    simpl. do 2 right. left.
  - reflexivity.
  - exists pid. split; [|split; assumption].
    rewrite Hpid. vm_compute. reflexivity.
Defined.

End OnSample.

(** ** Further properties of the identifiers *)

Lemma append_nil (s : string) : "" +:+ s = s.
Proof. reflexivity. Qed.

Lemma append_cons (c : ascii) (s1 s2 : string) :
  String c s1 +:+ s2 = String c (s1 +:+ s2).
Proof. reflexivity. Qed.

Lemma slashFree_append_slash (s1 s2 : string) : slashFree (s1 +:+ "/" +:+ s2) = false.
Proof.
  induction s1 as [|c s1 IH]; [done|].
  rewrite append_cons. simpl. by case_decide.
Qed.

(** The decimal digits of a number have no [/] among them. *)
Lemma slashFree_pretty_N_go (x : N) (s : string) :
  slashFree s = true → slashFree (pretty_N_go x s) = true.
Proof.
  revert s. induction (N.lt_wf_0 x) as [x _ IH]; intros s Hs.
  assert (x = 0 ∨ 0 < x)%N as [->|Hpos] by lia.
  - by rewrite pretty_N_go_0.
  - rewrite pretty_N_go_step by done. apply IH; [by apply N.div_lt|].
    simpl. rewrite decide_False; [done|].
    unfold pretty_N_char. by repeat case_match.
Qed.

Lemma slashFree_pretty (x : N) : slashFree (pretty x) = true.
Proof.
  unfold pretty, pretty_N. case_decide; [done|]. by apply slashFree_pretty_N_go.
Qed.

(** Cutting at the first [/]. *)
Lemma append_slash_inj_first (d1 d2 r1 r2 : string) :
  slashFree d1 = true → slashFree d2 = true →
  d1 +:+ "/" +:+ r1 = d2 +:+ "/" +:+ r2 → d1 = d2 ∧ r1 = r2.
Proof.
  revert d2. induction d1 as [|c d1 IH]; intros [|c' d2];
    rewrite ?append_nil, ?append_cons; simpl; intros H1 H2 Heq.
  - by simplify_eq.
  - injection Heq as <- _. by rewrite decide_True in H2.
  - injection Heq as -> _. by rewrite decide_True in H1.
  - injection Heq as <- Heq. case_decide; [done|].
    destruct (IH d2 H1 H2 Heq) as [-> ->]. done.
Qed.

(** Cutting at the last [/]. *)
Lemma append_slash_inj_last (a1 a2 m1 m2 : string) :
  slashFree m1 = true → slashFree m2 = true →
  a1 +:+ "/" +:+ m1 = a2 +:+ "/" +:+ m2 → a1 = a2 ∧ m1 = m2.
Proof.
  revert a2. induction a1 as [|c a1 IH]; intros [|c' a2] H1 H2 Heq.
  - change (String "/" m1 = String "/" m2) in Heq. by simplify_eq.
  - change (String "/" m1 = String c' (a2 +:+ "/" +:+ m2)) in Heq.
    injection Heq as _ Heq. rewrite Heq, slashFree_append_slash in H1. done.
  - change (String c (a1 +:+ "/" +:+ m1) = String "/" m2) in Heq.
    injection Heq as _ Heq. rewrite <-Heq, slashFree_append_slash in H2. done.
  - change (String c (a1 +:+ "/" +:+ m1) = String c' (a2 +:+ "/" +:+ m2)) in Heq.
    injection Heq as <- Heq. destruct (IH a2 H1 H2 Heq) as [-> ->]. done.
Qed.

Lemma protocolID_shard (s1 s2 : ShardId) (a1 a2 n1 n2 : string) :
  protocolID s1 a1 n1 = protocolID s2 a2 n2 →
  s1 = s2 ∧ a1 +:+ "/" +:+ n1 = a2 +:+ "/" +:+ n2.
Proof.
  unfold protocolID. intros Heq.
  apply (inj (String.append "/shard/")) in Heq.
  apply append_slash_inj_first in Heq as [Hs Hrest]; [|apply slashFree_pretty..].
  by apply (inj pretty) in Hs.
Qed.

(** X1: the identifiers of two distinct shards differ, whatever the API
    names and the method names are. *)
Theorem protocolID_separates_shards (s1 s2 : ShardId) (a1 a2 n1 n2 : string) :
  s1 ≠ s2 → protocolID s1 a1 n1 ≠ protocolID s2 a2 n2.
Proof. intros Hne Heq. by apply protocolID_shard in Heq as [? _]. Qed.

(** X2: when the method names have no [/], as the names of Go methods, the
    identifier determines the shard, the API name and the method name. *)
Theorem protocolID_inj (s1 s2 : ShardId) (a1 a2 n1 n2 : string) :
  slashFree n1 = true → slashFree n2 = true →
  protocolID s1 a1 n1 = protocolID s2 a2 n2 →
  s1 = s2 ∧ a1 = a2 ∧ n1 = n2.
Proof.
  intros H1 H2 Heq. apply protocolID_shard in Heq as [-> Hrest].
  by apply append_slash_inj_last in Hrest as [-> ->].
Qed.

(** ** Further properties of registration and of the handlers *)

Section MoreProperties.

Context {Ctx Value St : Type}.
Variable ValueOf : Ctx → Value.
Variable newApiCodec : rtype → rtype → gmap string (@methodCodec Value) * option error.

Implicit Types (codec : gmap string (@methodCodec Value)) (mc : @methodCodec Value).
Implicit Types (o : @Object Value St) (api : option (@Object Value St)).
Implicit Types (rh : gmap ProtocolID (@RequestHandler Ctx St)) (h : @RequestHandler Ctx St).
Implicit Types (w : @World Ctx St) (m : Method) (ms : list Method).
Implicit Types (s : ShardId) (a name : string) (pid : ProtocolID).

(** X4: the range over [requestHandlers] (lines 85-87) may visit the entries
    in any order: registration ends in the same world. *)
Theorem registration_independent_of_range_order
    (ctx : Ctx) (proto t : rtype) api s a w rh
    (entries : list (ProtocolID * @RequestHandler Ctx St)) :
  getRawApiRequestHandlers ValueOf newApiCodec proto t api s a = Returns (rh, None) →
  entries ≡ₚ map_to_list rh →
  (Returns None, installHandlers ctx entries w)
    = setRawApiRequestHandlers ValueOf newApiCodec ctx proto t api s a w.
Proof.
  intros Hget Hperm. unfold setRawApiRequestHandlers. rewrite Hget. f_equal.
  rewrite (installHandlers_order ctx rh entries w Hperm).
  by rewrite (installHandlers_order ctx rh (map_to_list rh) w).
Qed.

(** X5: the loop of lines 68-75 builds the same handler set in whatever
    order it visits the methods. *)
Theorem handlersLoop_method_order codec o s a ms ms' rh rh' :
  ms ≡ₚ ms' →
  handlersLoop ValueOf codec o s a ms rh = Returns rh' →
  handlersLoop ValueOf codec o s a ms' rh = Returns rh'.
Proof.
  intros Hperm. revert rh rh'.
  induction Hperm as [|x l l' _ IH|x y l|l l' l'' _ IH1 _ IH2]; intros rh rh' Hloop.
  - done.
  - simpl in *. destruct (codec !! Name x); [by apply IH|done].
  - simpl in *.
    destruct (codec !! Name y) as [mcy|] eqn:Hy; [|done].
    destruct (codec !! Name x) as [mcx|] eqn:Hx; [|done].
    rewrite <-Hloop. f_equal.
    destruct (decide (Name x = Name y)) as [Heq|Hne].
    + rewrite Heq in *. simplify_eq. by rewrite !insert_insert_eq.
    + apply insert_insert_ne. intros Hpid. by apply protocolID_inj_method in Hpid.
  - by apply IH2, IH1.
Qed.

Lemma handlersLoop_size codec o s a ms rh rh' :
  NoDup (Name <$> ms) →
  (∀ m, m ∈ ms → rh !! protocolID s a (Name m) = None) →
  handlersLoop ValueOf codec o s a ms rh = Returns rh' →
  size rh' = size rh + length ms.
Proof.
  revert rh. induction ms as [|m0 ms IH]; intros rh Hnd Hfresh Hloop.
  - simpl in *. simplify_eq. lia.
  - rewrite fmap_cons in Hnd. apply NoDup_cons in Hnd as [Hm0 Hnd].
    simpl in Hloop. destruct (codec !! Name m0) as [mc0|]; [|done].
    rewrite (IH _ Hnd) with (2 := Hloop).
    + rewrite map_size_insert_None by (apply Hfresh; by left). simpl. lia.
    + intros m Hm. rewrite lookup_insert_ne; [apply Hfresh; by right|].
      intros Hpid. apply protocolID_inj_method in Hpid.
      apply Hm0. rewrite Hpid. by apply list_elem_of_fmap_2.
Qed.

(** X6: the handler set has one entry for each exported method: as many
    entries as the API type has exported methods, their names being
    distinct. *)
Theorem handler_count (proto t : rtype) api s a rh :
  NoDup (Name <$> exportedMethods t) →
  getRawApiRequestHandlers ValueOf newApiCodec proto t api s a = Returns (rh, None) →
  size rh = length (exportedMethods t).
Proof.
  intros Hnd Hget.
  apply getRawApiRequestHandlers_built in Hget as (o & codec & _ & _ & _ & Hloop).
  rewrite (handlersLoop_size _ _ _ _ _ _ _ Hnd) with (2 := Hloop).
  - by rewrite map_size_empty.
  - intros m _. apply lookup_empty.
Qed.

(** X7: every handler of the handler set wraps a method that the API object
    has: the check of line 60 makes [MethodByName] of line 74 find the
    method, so no handler is built around the zero Value. *)
Theorem registered_handlers_wrap_bound_methods (proto t : rtype) api s a rh pid h :
  getRawApiRequestHandlers ValueOf newApiCodec proto t api s a = Returns (rh, None) →
  rh !! pid = Some h →
  ∃ o codec m bound (f : @Func Value St) mc,
    api = Some o ∧ newApiCodec t proto = (codec, None) ∧
    m ∈ exportedMethods t ∧ pid = protocolID s a (Name m) ∧
    (bound, f) ∈ Bound o ∧ Name bound = Name m ∧ PkgPath bound = "" ∧
    codec !! Name m = Some mc ∧
    h = makeRequestHandler ValueOf (Some f) mc.
Proof.
  intros Hget Hh.
  apply getRawApiRequestHandlers_built in Hget as (o & codec & -> & Himpl & Hcodec & Hloop).
  destruct (handlersLoop_origin _ _ _ _ _ _ _ _ _ _ Hloop Hh)
    as [Hempty|(m & mc & Hm & Hmc & -> & ->)]; [by rewrite lookup_empty in Hempty|].
  pose proof Hm as Hm'. apply elem_of_exportedMethods in Hm' as [Hin Hexp].
  destruct (MethodByName_is_Some o m) as [f Hf]; [by eapply Implements_elem_of|done|].
  destruct (MethodByName_bound _ _ _ Hf) as (bound & Hb & Hname & Hpkg).
  exists o, codec, m, bound, f, mc. by rewrite Hf.
Qed.

(** X8: a handler panics only when the call of the API method panics, on a
    request that was decoded; the handler adds no panic of its own. *)
Theorem handler_panics_only_with_method (v : option (@Func Value St)) mc
    (ctx : Ctx) (request : bytes) (st st' : St) (msg : string) :
  makeRequestHandler ValueOf v mc ctx request st = (Panics msg, st') →
  ∃ args, unpackRequest mc request = (args, None) ∧
          Call v ([ValueOf ctx] ++ args) st = (Panics msg, st').
Proof.
  unfold makeRequestHandler.
  destruct (unpackRequest mc request) as [args [e|]]; [done|].
  intros Hcall. exists args. split; [done|].
  destruct (Call v _ st) as [[results|msg'] st'']; by simplify_eq.
Qed.

(** X9: a handler returns an error to the transport only when the request
    was decoded, the method returned and [packResponse] returned that
    error; a request that is not decoded never ends in a transport error. *)
Theorem handler_transport_error_origin (v : option (@Func Value St)) mc
    (ctx : Ctx) (request response : bytes) (st st' : St) (e : error) :
  makeRequestHandler ValueOf v mc ctx request st = (Returns (response, Some e), st') →
  ∃ args results,
    unpackRequest mc request = (args, None) ∧
    Call v ([ValueOf ctx] ++ args) st = (Returns results, st') ∧
    packResponse mc results = (response, Some e).
Proof.
  unfold makeRequestHandler.
  destruct (unpackRequest mc request) as [args [e'|]]; [done|].
  intros Hcall. exists args.
  destruct (Call v _ st) as [[results|msg'] st'']; [|done].
  exists results. by simplify_eq.
Qed.

(** X10: registration writes to the log exactly when it returns an error:
    one line, at level error, with that error; a registration that
    succeeds or panics logs nothing. *)
Theorem registration_log (ctx : Ctx) (proto t : rtype) api s a w :
  logged (setRawApiRequestHandlers ValueOf newApiCodec ctx proto t api s a w).2
  = logged w ++
    match (setRawApiRequestHandlers ValueOf newApiCodec ctx proto t api s a w).1 with
    | Returns (Some e) => [mkLogEvent "error" e "Failed to create request handlers"]
    | _ => []
    end.
Proof.
  unfold setRawApiRequestHandlers.
  destruct (getRawApiRequestHandlers _ _ _ _ _ _ _) as [[rh [e|]]|msg]; simpl.
  - done.
  - by rewrite installHandlers_logged, (right_id_L [] (++)).
  - by rewrite (right_id_L [] (++)).
Qed.

(** X11: a registration for one shard leaves the handlers of every other
    shard as they are, whatever the API names, the methods and the outcome
    of the registration. *)
Theorem registration_keeps_other_shards
    (ctx : Ctx) (proto t : rtype) api s s' a a' name w :
  s' ≠ s →
  handlers (setRawApiRequestHandlers ValueOf newApiCodec ctx proto t api s a w).2
    !! protocolID s' a' name
  = handlers w !! protocolID s' a' name.
Proof.
  intros Hne. apply setRawApiRequestHandlers_untouched.
  intros m _ Heq. by apply protocolID_shard in Heq as [? _].
Qed.

(** X12: registering once more, with the same arguments, after a
    registration that succeeded changes nothing. *)
Theorem reregistration_is_idempotent (ctx : Ctx) (proto t : rtype) api s a w w' :
  setRawApiRequestHandlers ValueOf newApiCodec ctx proto t api s a w = (Returns None, w') →
  setRawApiRequestHandlers ValueOf newApiCodec ctx proto t api s a w' = (Returns None, w').
Proof.
  intros Hset.
  apply setRawApiRequestHandlers_installed in Hset as (rh & Hget & ->).
  unfold setRawApiRequestHandlers. rewrite Hget. f_equal.
  rewrite (installHandlers_order ctx rh) by done. simpl.
  by rewrite (assoc_L (∪)), (idemp_L (∪)).
Qed.

(** X13: for an API type without exported methods a registration succeeds
    and leaves the world as it is. *)
Theorem registration_without_exported_methods
    (ctx : Ctx) (proto t : rtype) o codec s a w :
  exportedMethods t = [] →
  Implements o t = true →
  newApiCodec t proto = (codec, None) →
  setRawApiRequestHandlers ValueOf newApiCodec ctx proto t (Some o) s a w = (Returns None, w).
Proof.
  intros Hnone Himpl Hcodec.
  unfold setRawApiRequestHandlers, getRawApiRequestHandlers.
  rewrite Himpl, Hcodec. simpl. fold (exportedMethods t). rewrite Hnone. simpl.
  by rewrite map_to_list_empty.
Qed.

(** X14: a registration under one API name leaves the handlers under every
    other API name as they are, the method names being free of [/]. *)
Theorem registration_keeps_other_api_names
    (ctx : Ctx) (proto t : rtype) api s s' a a' name w :
  a' ≠ a →
  slashFree name = true →
  (∀ m, m ∈ exportedMethods t → slashFree (Name m) = true) →
  handlers (setRawApiRequestHandlers ValueOf newApiCodec ctx proto t api s a w).2
    !! protocolID s' a' name
  = handlers w !! protocolID s' a' name.
Proof.
  intros Hne Hname Hfree. apply setRawApiRequestHandlers_untouched.
  intros m Hm Heq. apply protocolID_shard in Heq as [_ Hrest].
  apply append_slash_inj_last in Hrest as [Ha _]; [done..|]. by apply Hfree.
Qed.

End MoreProperties.

(** ** The further properties on the sample instance *)

Section MoreOnSample.

Import Sample.

Lemma protocolID_separates_shards_witness :
  protocolID 3 "rawapi" "GetBalance" ≠ protocolID 4 "rawapi" "GetBalance".
Proof. apply protocolID_separates_shards. discriminate. Defined.

Lemma protocolID_inj_witness :
  (3 = 3)%N ∧ "rawapi" = "rawapi" ∧ "GetBalance" = "GetBalance".
Proof.
  apply (protocolID_inj 3 3 "rawapi" "rawapi" "GetBalance" "GetBalance"); reflexivity.
Defined.

Lemma registration_independent_of_range_order_witness :
  (Returns None, installHandlers tt (reverse (map_to_list pairHandlers)) emptyWorld) = pairRun.
Proof.
  apply (registration_independent_of_range_order valueOf buildCodec tt pairProtocol pairApi
           (Some pairObject) 3 "rawapi" emptyWorld pairHandlers).
  - vm_compute. reflexivity.
  - apply reverse_Permutation.
Defined.

Lemma handlersLoop_method_order_witness :
  handlersLoop valueOf (buildCodec pairApi pairProtocol).1 pairObject 3 "rawapi"
    [GetCode; GetBalance] ∅
  = Returns pairHandlers.
Proof.
  apply (handlersLoop_method_order valueOf (buildCodec pairApi pairProtocol).1 pairObject
           3 "rawapi" [GetBalance; GetCode] [GetCode; GetBalance] ∅ pairHandlers).
  - apply perm_swap.
  - vm_compute. reflexivity.
Defined.

Lemma handler_count_witness : size pairHandlers = 2.
Proof.
  apply (handler_count valueOf buildCodec pairProtocol pairApi (Some pairObject) 3 "rawapi"
           pairHandlers).
  - vm_compute. compute_done.
  - vm_compute. reflexivity.
Defined.

Lemma registered_handlers_wrap_bound_methods_witness :
  ∃ o codec m bound (f : @Func value nat) mc,
    Some smallObject = Some o ∧ buildCodec smallApi smallProtocol = (codec, None) ∧
    m ∈ exportedMethods smallApi ∧
    protocolID 3 "rawapi" "GetBalance" = protocolID 3 "rawapi" (Name m) ∧
    (bound, f) ∈ Bound o ∧ Name bound = Name m ∧ PkgPath bound = "" ∧
    codec !! Name m = Some mc ∧
    makeRequestHandler valueOf (Some echo) Sample.codec = makeRequestHandler valueOf (Some f) mc.
Proof.
  apply (registered_handlers_wrap_bound_methods valueOf buildCodec smallProtocol smallApi
           (Some smallObject) 3 "rawapi" smallHandlers).
  - vm_compute. reflexivity.
  - vm_compute. reflexivity.
Defined.

Lemma handler_panics_only_with_method_witness :
  ∃ args, unpackRequest codec [Byte.x2a] = (args, None) ∧
          Call (Some faulty) ([valueOf tt] ++ args) 5
            = (Panics "runtime error: index out of range", 5).
Proof.
  apply (handler_panics_only_with_method valueOf (Some faulty) codec tt [Byte.x2a] 5 5
           "runtime error: index out of range").
  reflexivity.
Defined.

Lemma handler_transport_error_origin_witness :
  ∃ args results,
    unpackRequest codec [Byte.x2a] = (args, None) ∧
    Call (Some odd) ([valueOf tt] ++ args) 0 = (Returns results, 1) ∧
    packResponse codec results = ([], Some (errors_New "unexpected results")).
Proof.
  apply (handler_transport_error_origin valueOf (Some odd) codec tt [Byte.x2a] [] 0 1
           (errors_New "unexpected results")).
  reflexivity.
Defined.

Lemma registration_keeps_other_shards_witness :
  handlers (setRawApiRequestHandlers valueOf buildCodec tt smallProtocol smallApi
              (Some smallObject) 3 "rawapi" busyWorld).2
    !! protocolID 4 "rawapi" "GetBalance"
  = handlers busyWorld !! protocolID 4 "rawapi" "GetBalance".
Proof. apply registration_keeps_other_shards. discriminate. Defined.

Lemma reregistration_is_idempotent_witness :
  setRawApiRequestHandlers valueOf buildCodec tt smallProtocol smallApi
    (Some smallObject) 3 "rawapi" smallRun.2
  = (Returns None, smallRun.2).
Proof.
  apply (reregistration_is_idempotent valueOf buildCodec tt smallProtocol smallApi
           (Some smallObject) 3 "rawapi" emptyWorld).
  vm_compute. reflexivity.
Defined.

Lemma registration_without_exported_methods_witness :
  setRawApiRequestHandlers valueOf buildCodec tt smallProtocol hiddenApi
    (Some poorObject) 3 "rawapi" busyWorld
  = (Returns None, busyWorld).
Proof.
  apply (registration_without_exported_methods valueOf buildCodec tt smallProtocol hiddenApi
           poorObject ∅).
  - vm_compute. reflexivity.
  - vm_compute. reflexivity.
  - vm_compute. reflexivity.
Defined.

Lemma registration_keeps_other_api_names_witness :
  handlers (setRawApiRequestHandlers valueOf buildCodec tt smallProtocol smallApi
              (Some smallObject) 4 "otherapi" busyWorld).2
    !! protocolID 4 "rawapi" "GetBalance"
  = handlers busyWorld !! protocolID 4 "rawapi" "GetBalance".
Proof.
  apply registration_keeps_other_api_names.
  - discriminate.
  - reflexivity.
  - intros m Hm. vm_compute in Hm. apply list_elem_of_singleton in Hm. subst m. reflexivity.
Defined.

End MoreOnSample.
